(** * gatekeeperops: the validator Lambda, [lambdas/validate_logic/app.py]

    The repository holds one Python function, [lambda_handler(event, context)].
    It reads the field ["input"] of the event, decides whether it is a string
    of more than three characters, and returns a dict with the value, the
    verdict and a message.

    The embedding is shallow.  Python objects are the inductive type [value];
    a dict is a finite map with string keys (the events of the host are decoded
    JSON objects, and the response's keys are string literals); an operation
    that can raise returns a [result].  The builtins the handler calls
    ([dict.get], [isinstance(_, str)], [len], [>] on ints, [and], the
    conditional expression, the dict display) are each a definition of their
    own, and [lambda_handler] is written from them line by line. *)

From Stdlib Require Import ZArith String PrimFloat.
From stdpp Require Import gmap strings fin_maps.

Local Open Scope string_scope.
Local Open Scope Z_scope.

(** ** Python values *)

Module Py.

(** The objects an event can hold: what [json.loads] produces.  A [str] is a
    sequence of characters; one character of the model stands for one element
    of the Python string, so that [String.length] is [len]. *)
#[warnings="-register-all"]
Inductive value : Type :=
  | VNone : value
  | VBool : bool -> value
  | VInt : Z -> value
  | VFloat : float -> value
  | VStr : string -> value
  | VList : list value -> value
  | VDict : gmap string value -> value.

(** The exceptions the builtins used here can raise. *)
Inductive exn : Type :=
  | AttributeError : string -> exn
  | TypeError : string -> exn.

(** The outcome of evaluating an expression: a value, or a raised exception. *)
Inductive result (A : Type) : Type :=
  | Ok : A -> result A
  | Raise : exn -> result A.

Arguments Ok {A} _.
Arguments Raise {A} _.

(** Sequencing: an exception raised by the first computation is the outcome
    of the whole.  With these instances [x ← r; k] is stdpp's notation. *)
#[global] Instance result_ret : MRet result := @Ok.

#[global] Instance result_bind : MBind result := fun A B k r =>
  match r with
  | Ok a => k a
  | Raise e => Raise e
  end.

(** [bool(v)]: the truth value Python gives an object in [and] and in a
    conditional expression.  A NaN is true ([nan != 0]). *)
Definition truthy (v : value) : bool :=
  match v with
  | VNone => false
  | VBool b => b
  | VInt n => negb (n =? 0)
  | VFloat f => negb (PrimFloat.eqb f PrimFloat.zero)
  | VStr s => negb (String.eqb s "")
  | VList l => match l with nil => false | _ => true end
  | VDict d => negb (Nat.eqb (size d) 0)
  end.

(** [type(v).__name__], used in the messages of the exceptions. *)
Definition type_name (v : value) : string :=
  match v with
  | VNone => "NoneType"
  | VBool _ => "bool"
  | VInt _ => "int"
  | VFloat _ => "float"
  | VStr _ => "str"
  | VList _ => "list"
  | VDict _ => "dict"
  end.

(** [o.get(key, default)].  Only a dict has the method; on a dict it never
    raises: it is the value at [key], or [default] when the key is absent. *)
Definition get (o : value) (key : string) (default : value) : result value :=
  match o with
  | VDict d =>
      match d !! key with
      | Some v => Ok v
      | None => Ok default
      end
  | _ => Raise (AttributeError (type_name o))
  end.

(** [isinstance(v, str)]: a [bool]. *)
Definition isinstance_str (v : value) : value :=
  match v with
  | VStr _ => VBool true
  | _ => VBool false
  end.

(** [len(v)]: an [int] for the sized objects, [TypeError] for the others. *)
Definition len (v : value) : result Z :=
  match v with
  | VStr s => Ok (Z.of_nat (String.length s))
  | VList l => Ok (Z.of_nat (List.length l))
  | VDict d => Ok (Z.of_nat (size d))
  | _ => Raise (TypeError (type_name v))
  end.

(** [a > b] on two ints: a [bool]. *)
Definition int_gt (a b : Z) : value := VBool (b <? a).

(** [a and b]: [a] when [a] is false, else [b]; [b] is evaluated, and can
    raise, only when [a] is true. *)
Definition and_ (a : value) (b : result value) : result value :=
  if truthy a then b else Ok a.

(** [x if c else y]. *)
Definition if_else (x c y : value) : value :=
  if truthy c then x else y.

(** The dict display [{k1: v1, ..., kn: vn}]: the items are stored from left
    to right, a later item replacing an earlier one with the same key. *)
Definition display (items : list (string * value)) : value :=
  VDict (foldl (fun d kv => <[kv.1 := kv.2]> d) ∅ items).

End Py.

Import Py.

(** ** The handler *)

(** [lambda_handler(event, context)], statement by statement. *)
Definition lambda_handler (event context : value) : result value :=
  input_value ← get event "input" (VStr "");
  is_valid ← and_ (isinstance_str input_value)
                  (n ← len input_value; mret (int_gt n 3));
  mret (display [("input", input_value);
                 ("is_valid", is_valid);
                 ("message", if_else (VStr "Valid input") is_valid
                                     (VStr "Invalid input"))]).

(** ** Vocabulary of the properties *)

(** The extracted value of an event mapping: its ["input"] field, or the empty
    string when the mapping has no such key. *)
Definition extracted (event : gmap string value) : value :=
  default (VStr "") (event !! "input").

(** The field [key] of an outcome: [None] when the handler raised, when it
    returned something that is not a dict, or when the dict has no such key. *)
Definition field (key : string) (r : result value) : option value :=
  match r with
  | Ok (VDict resp) => resp !! key
  | _ => None
  end.

(** The keys of an outcome that is a dict. *)
Definition keys (r : result value) : option (gset string) :=
  match r with
  | Ok (VDict resp) => Some (dom resp)
  | _ => None
  end.

(** ** The handler as Python runs it: against the module's namespace

    A Python function runs against the global namespace of its module: a free
    name of its body ([isinstance], [str], [len]) is looked up there first and
    among the builtins second, and a statement under a [global] declaration
    writes there.  That namespace outlives a call, so it is where a function
    could keep something from one invocation to the next.  Here the namespace
    is threaded through the handler: every step takes it and gives it back. *)

Module Run.

(** The builtins the handler names. *)
Inductive builtin : Type :=
  | Bisinstance : builtin
  | Blen : builtin
  | Bstr : builtin.

(** What a name can be bound to: a value, or a builtin function or type. *)
Inductive obj : Type :=
  | Val : value -> obj
  | Builtin : builtin -> obj.

(** The names of the [builtins] module that the handler uses. *)
Definition builtins : gmap string obj :=
  <["str" := Builtin Bstr]>
    (<["len" := Builtin Blen]>
      (<["isinstance" := Builtin Bisinstance]> ∅)).

(** How a step can fail: a Python exception of the builtins, a name bound
    nowhere, or an operation on operands that this model does not cover. *)
Inductive fault : Type :=
  | Exn : exn -> fault
  | NameError : string -> fault
  | Unsupported : fault.

Inductive outcome (A : Type) : Type :=
  | Done : A -> outcome A
  | Fault : fault -> outcome A.

Arguments Done {A} _.
Arguments Fault {A} _.

(** A step: from the namespace before to an outcome and the namespace after. *)
Definition M (A : Type) : Type := gmap string obj -> outcome A * gmap string obj.

#[global] Instance M_ret : MRet M := fun A a g => (Done a, g).

#[global] Instance M_bind : MBind M := fun A B k m g =>
  match m g with
  | (Done a, g') => k a g'
  | (Fault f, g') => (Fault f, g')
  end.

(** An operation of the pure model, as a step that leaves the namespace. *)
Definition lift {A : Type} (r : result A) : M A := fun g =>
  (match r with Ok a => Done a | Raise e => Fault (Exn e) end, g).

(** Reading a free name: the module's globals first, the builtins second. *)
Definition load_name (x : string) : M obj := fun g =>
  match g !! x with
  | Some o => (Done o, g)
  | None =>
      match builtins !! x with
      | Some o => (Done o, g)
      | None => (Fault (NameError x), g)
      end
  end.

(** Writing a global: [x = o] under [global x].  The handler has no [global]
    declaration, so its assignments bind locals and it has no such step. *)
Definition store_global (x : string) (o : obj) : M unit := fun g =>
  (Done tt, <[x := o]> g).

(** [o.get(key, default)] with a string key. *)
Definition method_get (o : value) (key : string) (default : value) : M value :=
  lift (get o key default).

(** A call [f(args)], for the callables of the model.  A value is not
    callable; [isinstance] wants a type as its second argument; calls of the
    type [str] itself are not covered. *)
Definition call (f : obj) (args : list obj) : M value :=
  match f, args with
  | Builtin Bisinstance, [Val v; Builtin Bstr] => mret (isinstance_str v)
  | Builtin Bisinstance, [Builtin _; Builtin Bstr] => mret (VBool false)
  | Builtin Bisinstance, [_; _] => lift (Raise (TypeError "isinstance"))
  | Builtin Bisinstance, _ => lift (Raise (TypeError "isinstance"))
  | Builtin Blen, [Val v] => n ← lift (len v); mret (VInt n)
  | Builtin Blen, [Builtin _] =>
      lift (Raise (TypeError "builtin_function_or_method"))
  | Builtin Blen, _ => lift (Raise (TypeError "len"))
  | Builtin Bstr, _ => fun g => (Fault Unsupported, g)
  | Val v, _ => lift (Raise (TypeError (type_name v)))
  end.

(** [a > b], on ints ([bool] is a subclass of [int]); the comparisons of
    other types are not covered. *)
Definition gt (a b : value) : M value :=
  let as_int v := match v with
                  | VInt n => Some n
                  | VBool c => Some (if c then 1 else 0)
                  | _ => None
                  end in
  match as_int a, as_int b with
  | Some x, Some y => mret (int_gt x y)
  | _, _ => fun g => (Fault Unsupported, g)
  end.

(** [a and b]: the steps of [b] run only when [a] is true. *)
Definition and_m (a b : M value) : M value :=
  v ← a; if truthy v then b else mret v.

(** [lambda_handler(event, context)] with its name lookups written out.
    [input_value] and [is_valid] are locals: binders of the model. *)
Definition lambda_handler (event context : value) : M value :=
  input_value ← method_get event "input" (VStr "");
  is_valid ← and_m
    (f ← load_name "isinstance"; t ← load_name "str";
     call f [Val input_value; t])
    (f ← load_name "len"; n ← call f [Val input_value]; gt n (VInt 3));
  mret (display [("input", input_value);
                 ("is_valid", is_valid);
                 ("message", if_else (VStr "Valid input") is_valid
                                     (VStr "Invalid input"))]).

(** The outcome of the pure model, as an outcome of a run. *)
Definition of_result {A : Type} (r : result A) : outcome A :=
  match r with
  | Ok a => Done a
  | Raise e => Fault (Exn e)
  end.

(** A step that gives back the namespace it was given, whatever that is. *)
Definition preserves {A : Type} (m : M A) : Prop :=
  ∀ g, (m g).2 = g.

(** The globals do not rebind the builtins that the handler names. *)
Definition unshadowed (g : gmap string obj) : Prop :=
  g !! "isinstance" = None ∧ g !! "str" = None ∧ g !! "len" = None.

End Run.

(** ** The builtins on the values the handler gives them *)

Section Builtins.

Implicit Types (d : gmap string value) (v : value) (s : string).

Lemma bind_Ok {A B : Type} (a : A) (k : A → result B) : Ok a ≫= k = k a.
Proof. reflexivity. Qed.

Lemma bind_Raise {A B : Type} (e : exn) (k : A → result B) :
  Raise e ≫= k = Raise e.
Proof. reflexivity. Qed.

Lemma get_dict d key v :
  get (VDict d) key v = Ok (default v (d !! key)).
Proof. unfold get. destruct (d !! key); reflexivity. Qed.

Lemma get_not_dict v key dflt :
  (∀ d, v ≠ VDict d) → get v key dflt = Raise (AttributeError (type_name v)).
Proof. intros Hv. destruct v; try reflexivity. destruct (Hv _ eq_refl). Qed.

Lemma isinstance_str_bool v :
  isinstance_str v = VBool (match v with VStr _ => true | _ => false end).
Proof. destruct v; reflexivity. Qed.

(** [and] does not look at its right operand when the left one is false:
    this is what keeps [len] away from the values that have no length. *)
Lemma and_false_left (r : result value) : and_ (VBool false) r = Ok (VBool false).
Proof. reflexivity. Qed.

Lemma and_true_left (r : result value) : and_ (VBool true) r = r.
Proof. reflexivity. Qed.

Lemma int_gt_len s :
  int_gt (Z.of_nat (String.length s)) 3 = VBool (3 <? String.length s)%nat.
Proof.
  unfold int_gt. f_equal.
  destruct (Nat.ltb_spec 3 (String.length s)) as [Hlt | Hge].
  - apply Z.ltb_lt. lia.
  - apply Z.ltb_ge. lia.
Qed.

Lemma if_else_bool x y (b : bool) : if_else x (VBool b) y = if b then x else y.
Proof. reflexivity. Qed.

End Builtins.

(** ** The handler on an event mapping *)

Section OnMappings.

Variables (event : gmap string value) (context : value).

(** The extracted value is a string: the verdict is the length test. *)
Lemma lambda_handler_str s :
  extracted event = VStr s →
  lambda_handler (VDict event) context
  = Ok (display [("input", VStr s);
                 ("is_valid", VBool (3 <? String.length s)%nat);
                 ("message", VStr (if (3 <? String.length s)%nat
                                   then "Valid input" else "Invalid input"))]).
Proof.
  intros Hs. unfold lambda_handler.
  rewrite get_dict. fold (extracted event). rewrite Hs, bind_Ok.
  change (isinstance_str (VStr s)) with (VBool true).
  rewrite and_true_left.
  change (len (VStr s)) with (Ok (Z.of_nat (String.length s))).
  rewrite !bind_Ok, int_gt_len, if_else_bool.
  destruct (3 <? String.length s)%nat; reflexivity.
Qed.

(** The extracted value is not a string: [len] is not evaluated. *)
Lemma lambda_handler_not_str :
  (∀ s, extracted event ≠ VStr s) →
  lambda_handler (VDict event) context
  = Ok (display [("input", extracted event);
                 ("is_valid", VBool false);
                 ("message", VStr "Invalid input")]).
Proof.
  intros Hs. unfold lambda_handler.
  rewrite get_dict. fold (extracted event).
  destruct (extracted event) as [| b | n | f | s | l | d]; try reflexivity.
  destruct (Hs s eq_refl).
Qed.

(** Both cases at once: the response is the display of the extracted
    value, a [bool] and the message that goes with it, and the [bool] is
    true exactly for a string of more than three characters. *)
Lemma lambda_handler_verdict :
  ∃ b : bool,
    lambda_handler (VDict event) context
    = Ok (display [("input", extracted event);
                   ("is_valid", VBool b);
                   ("message", VStr (if b then "Valid input"
                                     else "Invalid input"))])
    ∧ (b = true ↔ ∃ s, extracted event = VStr s ∧ (3 < String.length s)%nat).
Proof.
  destruct (extracted event) as [| b | n | f | s | l | d] eqn:Hv.
  5: {
    exists (3 <? String.length s)%nat. split.
    - apply lambda_handler_str, Hv.
    - rewrite Nat.ltb_lt. split.
      + intros Hlen. exists s. split; [reflexivity | exact Hlen].
      + intros (s' & Heq & Hlen). injection Heq as ->. exact Hlen.
  }
  all: exists false; split;
    [ rewrite <- Hv; apply lambda_handler_not_str; rewrite Hv; discriminate
    | split; [discriminate | intros (s' & Heq & _); discriminate Heq] ].
Qed.

End OnMappings.

(** ** The response as a mapping *)

(** The three fields of a returned dict, and nothing else in it. *)
Lemma display_response (a b c : value) :
  ∃ resp : gmap string value,
    display [("input", a); ("is_valid", b); ("message", c)] = VDict resp
    ∧ resp !! "input" = Some a
    ∧ resp !! "is_valid" = Some b
    ∧ resp !! "message" = Some c
    ∧ dom resp = ({["input"; "is_valid"; "message"]} : gset string).
Proof.
  eexists. split; [reflexivity |]. cbn [foldl fst snd].
  split; [by simplify_map_eq |].
  split; [by simplify_map_eq |].
  split; [by simplify_map_eq |].
  rewrite !dom_insert_L, dom_empty_L. set_solver.
Qed.

Lemma field_display (a b c : value) :
  let r := Ok (display [("input", a); ("is_valid", b); ("message", c)]) in
  field "input" r = Some a
  ∧ field "is_valid" r = Some b
  ∧ field "message" r = Some c
  ∧ keys r = Some ({["input"; "is_valid"; "message"]} : gset string).
Proof.
  destruct (display_response a b c) as (resp & -> & Hi & Hv & Hm & Hd).
  cbn. rewrite Hd. auto.
Qed.

(** ** The scenarios of the specification's table *)

Example scenario_hello :
  lambda_handler (VDict {["input" := VStr "hello"]}) VNone
  = Ok (display [("input", VStr "hello"); ("is_valid", VBool true);
                 ("message", VStr "Valid input")]).
Proof. vm_compute. reflexivity. Qed.

Example scenario_hi :
  lambda_handler (VDict {["input" := VStr "hi"]}) VNone
  = Ok (display [("input", VStr "hi"); ("is_valid", VBool false);
                 ("message", VStr "Invalid input")]).
Proof. vm_compute. reflexivity. Qed.

Example scenario_empty :
  lambda_handler (VDict ∅) VNone
  = Ok (display [("input", VStr ""); ("is_valid", VBool false);
                 ("message", VStr "Invalid input")]).
Proof. vm_compute. reflexivity. Qed.

Example scenario_12345 :
  lambda_handler (VDict {["input" := VInt 12345]}) VNone
  = Ok (display [("input", VInt 12345); ("is_valid", VBool false);
                 ("message", VStr "Invalid input")]).
Proof. vm_compute. reflexivity. Qed.

(** The boundary of the length test: three characters are not enough. *)
Example scenario_three_characters :
  field "is_valid" (lambda_handler (VDict {["input" := VStr "abc"]}) VNone)
  = Some (VBool false).
Proof. vm_compute. reflexivity. Qed.

(** Outside the contract: an event that is not a mapping has no [get]. *)
Lemma lambda_handler_not_mapping (event context : value) :
  (∀ d, event ≠ VDict d) →
  lambda_handler event context = Raise (AttributeError (type_name event)).
Proof.
  intros Hev. unfold lambda_handler.
  rewrite (get_not_dict _ _ _ Hev). apply bind_Raise.
Qed.

Example scenario_null_event :
  lambda_handler VNone VNone = Raise (AttributeError "NoneType").
Proof. apply lambda_handler_not_mapping. discriminate. Qed.

(** ** The properties of the specification *)

(** C1.  For every event mapping the field [is_valid] of the response is a
    boolean, and it is true if and only if the extracted value is a string
    whose length is greater than 3; every value that is not a string (an
    integer, a float, a boolean, null, a list, a mapping) gives false. *)
Theorem is_valid_iff_long_string (event : gmap string value) (context : value) :
  ∃ b : bool,
    field "is_valid" (lambda_handler (VDict event) context) = Some (VBool b)
    ∧ (b = true ↔ ∃ s, extracted event = VStr s ∧ (3 < String.length s)%nat)
    ∧ ((∀ s, extracted event ≠ VStr s) → b = false).
Proof.
  destruct (lambda_handler_verdict event context) as (b & -> & Hb).
  exists b. split; [apply field_display |]. split; [exact Hb |].
  intros Hns. destruct b; [| reflexivity].
  destruct Hb as [Hb _]. destruct (Hb eq_refl) as (s & Hs & _).
  destruct (Hns s Hs).
Qed.

(** C2.  For every event mapping the field [message] of the response is the
    literal "Valid input" when [is_valid] is true and the literal
    "Invalid input" when [is_valid] is false. *)
Theorem message_follows_is_valid (event : gmap string value) (context : value) :
  ∃ b : bool,
    field "is_valid" (lambda_handler (VDict event) context) = Some (VBool b)
    ∧ field "message" (lambda_handler (VDict event) context)
      = Some (VStr (if b then "Valid input" else "Invalid input")).
Proof.
  destruct (lambda_handler_verdict event context) as (b & -> & _).
  exists b. split; apply field_display.
Qed.

(** C3, as the table states it, fails: on [{"input": "test"}] the handler
    does not return [is_valid] false with the message "Invalid input". *)
Lemma scenario_test_not_invalid :
  lambda_handler (VDict {["input" := VStr "test"]}) VNone
  ≠ Ok (display [("input", VStr "test"); ("is_valid", VBool false);
                 ("message", VStr "Invalid input")]).
Proof.
  intros Heq. apply (f_equal (field "is_valid")) in Heq.
  vm_compute in Heq. discriminate Heq.
Qed.

(** C3, amended.  On [{"input": "test"}] the handler returns
    [{"input": "test", "is_valid": True, "message": "Valid input"}]: the
    string has four characters, and four is greater than three. *)
Theorem scenario_test_valid (context : value) :
  lambda_handler (VDict {["input" := VStr "test"]}) context
  = Ok (display [("input", VStr "test"); ("is_valid", VBool true);
                 ("message", VStr "Valid input")]).
Proof.
  apply (lambda_handler_str _ context "test"). reflexivity.
Qed.

(** C4.  An event mapping without the key "input" raises nothing: the empty
    string stands for the missing value, and the response has [input] the
    empty string, [is_valid] false and the message "Invalid input". *)
Theorem missing_input_is_empty_string (event : gmap string value) (context : value) :
  event !! "input" = None →
  lambda_handler (VDict event) context
  = Ok (display [("input", VStr ""); ("is_valid", VBool false);
                 ("message", VStr "Invalid input")]).
Proof.
  intros Hnone.
  apply (lambda_handler_str event context "").
  unfold extracted. rewrite Hnone. reflexivity.
Qed.

Lemma missing_input_is_empty_string_witness :
  let event : gmap string value := {["other" := VInt 7]} in
  event !! "input" = None
  ∧ lambda_handler (VDict event) VNone
    = Ok (display [("input", VStr ""); ("is_valid", VBool false);
                   ("message", VStr "Invalid input")]).
Proof.
  split; [reflexivity |].
  apply (missing_input_is_empty_string {["other" := VInt 7]} VNone).
  reflexivity.
Defined.

(** C5.  On every event mapping, whatever its fields hold, the handler
    returns a response: it raises no exception. *)
Theorem lambda_handler_total_on_mappings (event : gmap string value) (context : value) :
  (∃ resp, lambda_handler (VDict event) context = Ok (VDict resp))
  ∧ (∀ e, lambda_handler (VDict event) context ≠ Raise e).
Proof.
  destruct (lambda_handler_verdict event context) as (b & -> & _).
  split.
  - destruct (display_response (extracted event) (VBool b)
                (VStr (if b then "Valid input" else "Invalid input")))
      as (resp & -> & _).
    exists resp. reflexivity.
  - intros e. discriminate.
Qed.

(** C6.  For every event mapping the field [input] of the response is the
    extracted value itself: the value at "input" when the event has one, of
    whatever type, and the empty string otherwise. *)
Theorem input_passes_through (event : gmap string value) (context : value) :
  field "input" (lambda_handler (VDict event) context) = Some (extracted event)
  ∧ (∀ v, event !! "input" = Some v →
          field "input" (lambda_handler (VDict event) context) = Some v)
  ∧ (event !! "input" = None →
          field "input" (lambda_handler (VDict event) context) = Some (VStr "")).
Proof.
  assert (Hin : field "input" (lambda_handler (VDict event) context)
                = Some (extracted event)).
  { destruct (lambda_handler_verdict event context) as (b & -> & _).
    apply field_display. }
  split; [exact Hin |]. unfold extracted in Hin.
  split.
  - intros v Hv. rewrite Hin, Hv. reflexivity.
  - intros Hnone. rewrite Hin, Hnone. reflexivity.
Qed.

(** *** The handler and the namespace of its module *)

Section Namespace.

Implicit Types (g : gmap string Run.obj) (v : value).

Lemma preserves_ret {A : Type} (a : A) : Run.preserves (mret a).
Proof. intros g. reflexivity. Qed.

Lemma preserves_bind {A B : Type} (m : Run.M A) (k : A → Run.M B) :
  Run.preserves m → (∀ a, Run.preserves (k a)) → Run.preserves (m ≫= k).
Proof.
  intros Hm Hk g. unfold mbind, Run.M_bind.
  specialize (Hm g). destruct (m g) as [[a | f] g']; simpl in Hm; subst g'.
  - apply Hk.
  - reflexivity.
Qed.

Lemma preserves_lift {A : Type} (r : result A) : Run.preserves (Run.lift r).
Proof. intros g. reflexivity. Qed.

Lemma preserves_load_name x : Run.preserves (Run.load_name x).
Proof.
  intros g. unfold Run.load_name.
  destruct (g !! x); [reflexivity |].
  destruct (Run.builtins !! x); reflexivity.
Qed.

Lemma preserves_method_get v key dflt : Run.preserves (Run.method_get v key dflt).
Proof. apply preserves_lift. Qed.

Lemma preserves_call (f : Run.obj) (args : list Run.obj) : Run.preserves (Run.call f args).
Proof.
  intros g. destruct f as [v | [ | | ]]; [reflexivity | | | reflexivity].
  - destruct args as [| [v1 | b1] [| [v2 | [ | | ]] [| a3 args]]]; reflexivity.
  - destruct args as [| [v1 | b1] [| a2 args]]; try reflexivity.
    cbn. destruct (len v1); reflexivity.
Qed.

Lemma preserves_gt (a b : value) : Run.preserves (Run.gt a b).
Proof. intros g. destruct a, b; reflexivity. Qed.

Lemma preserves_and_m (a b : Run.M value) :
  Run.preserves a → Run.preserves b → Run.preserves (Run.and_m a b).
Proof.
  intros Ha Hb. unfold Run.and_m. apply preserves_bind; [exact Ha |].
  intros v. destruct (truthy v); [exact Hb | apply preserves_ret].
Qed.

(** A write of a global is a step that does not preserve: the namespace
    after it binds the name, whatever it held before. *)
Lemma store_global_writes x (o : Run.obj) g :
  (Run.store_global x o g).2 !! x = Some o.
Proof. apply lookup_insert_eq. Qed.

(** No step of the handler writes the namespace. *)
Lemma lambda_handler_preserves (event context : value) :
  Run.preserves (Run.lambda_handler event context).
Proof.
  unfold Run.lambda_handler.
  apply preserves_bind; [apply preserves_method_get |]. intros input_value.
  apply preserves_bind; [| intros is_valid; apply preserves_ret].
  apply preserves_and_m.
  - apply preserves_bind; [apply preserves_load_name |]. intros f.
    apply preserves_bind; [apply preserves_load_name |]. intros t.
    apply preserves_call.
  - apply preserves_bind; [apply preserves_load_name |]. intros f.
    apply preserves_bind; [apply preserves_call |]. intros n.
    apply preserves_gt.
Qed.

Lemma load_name_builtin x (o : Run.obj) g :
  g !! x = None → Run.builtins !! x = Some o → Run.load_name x g = (Run.Done o, g).
Proof. intros Hg Hb. unfold Run.load_name. rewrite Hg, Hb. reflexivity. Qed.

(** In a module that does not rebind [isinstance], [str] and [len], a run of
    the handler gives what the pure model gives. *)
Lemma lambda_handler_run (event context : value) g :
  Run.unshadowed g →
  Run.lambda_handler event context g
  = (Run.of_result (lambda_handler event context), g).
Proof.
  intros (Hisinstance & Hstr & Hlen).
  unfold Run.lambda_handler, lambda_handler, Run.method_get, Run.and_m.
  destruct (get event "input" (VStr "")) as [input_value | e]; [| reflexivity].
  unfold mbind at 1, Run.M_bind at 1. cbn [Run.lift].
  unfold mbind at 1, Run.M_bind at 1.
  unfold mbind at 1, Run.M_bind at 1.
  unfold mbind at 1, Run.M_bind at 1.
  rewrite (load_name_builtin "isinstance" (Run.Builtin Run.Bisinstance) g Hisinstance eq_refl).
  unfold mbind at 1, Run.M_bind at 1.
  rewrite (load_name_builtin "str" (Run.Builtin Run.Bstr) g Hstr eq_refl).
  destruct input_value as [| b | n | f | s | l | d]; cbn; try reflexivity.
  unfold mbind at 1, Run.M_bind at 1.
  rewrite (load_name_builtin "len" (Run.Builtin Run.Blen) g Hlen eq_refl).
  reflexivity.
Qed.

(** The namespace of the module as it is loaded binds none of the three. *)
Example module_namespace_unshadowed :
  Run.unshadowed {["__name__" := Run.Val (VStr "app")]}.
Proof. repeat split. Qed.

Example scenario_run_hello :
  Run.lambda_handler (VDict {["input" := VStr "hello"]}) VNone
    {["__name__" := Run.Val (VStr "app")]}
  = (Run.Done (display [("input", VStr "hello"); ("is_valid", VBool true);
                        ("message", VStr "Valid input")]),
     {["__name__" := Run.Val (VStr "app")]}).
Proof.
  rewrite (lambda_handler_run _ _ _ module_namespace_unshadowed).
  reflexivity.
Qed.

(** The lookups are real: were [len] rebound to a number, the call of it
    would raise, and the namespace would still come back untouched. *)
Example scenario_len_rebound :
  Run.lambda_handler (VDict {["input" := VStr "hello"]}) VNone
    {["len" := Run.Val (VInt 0)]}
  = (Run.Fault (Run.Exn (TypeError "int")), {["len" := Run.Val (VInt 0)]}).
Proof. reflexivity. Qed.

End Namespace.

(** C7.  Two calls of the handler with the same event and the same context
    give identical outcomes, and the handler keeps nothing from one call to
    the next: run against the namespace of its module, in whatever state that
    is, a call gives the namespace back as it found it, so the second call
    starts where the first did and ends with the same outcome.  Where the
    module does not rebind [isinstance], [str] and [len], that outcome is the
    one of the pure model, whatever else the namespace holds. *)
Theorem lambda_handler_keeps_no_state (event context : value)
    (g : gmap string Run.obj) :
  let first := Run.lambda_handler event context g in
  let second := Run.lambda_handler event context first.2 in
  first.2 = g ∧ second.1 = first.1 ∧ second.2 = g
  ∧ (Run.unshadowed g →
     first.1 = Run.of_result (lambda_handler event context)).
Proof.
  intros first second.
  assert (Hfirst : first.2 = g) by apply lambda_handler_preserves.
  split; [exact Hfirst |].
  split; [unfold second; rewrite Hfirst; reflexivity |].
  split; [unfold second; rewrite Hfirst; exact Hfirst |].
  intros Hg. unfold first. rewrite (lambda_handler_run event context g Hg).
  reflexivity.
Qed.

(** C8.  The response depends on the field "input" alone: two event mappings
    that agree on it (both without it, or both with the same value) get the
    same response, whatever else they hold and whatever the contexts are. *)
Theorem only_input_is_consumed (event1 event2 : gmap string value)
    (context1 context2 : value) :
  event1 !! "input" = event2 !! "input" →
  lambda_handler (VDict event1) context1 = lambda_handler (VDict event2) context2.
Proof.
  intros Hagree. unfold lambda_handler.
  rewrite !get_dict, Hagree. reflexivity.
Qed.

Lemma only_input_is_consumed_witness :
  let event1 : gmap string value :=
    <["trace" := VList [VInt 1; VNone]]> {["input" := VStr "hello"]} in
  let event2 : gmap string value := {["input" := VStr "hello"]} in
  event1 !! "input" = event2 !! "input"
  ∧ lambda_handler (VDict event1) VNone
    = lambda_handler (VDict event2) (VStr "ctx").
Proof.
  split; [reflexivity |].
  apply (only_input_is_consumed
           (<["trace" := VList [VInt 1; VNone]]> {["input" := VStr "hello"]})
           {["input" := VStr "hello"]} VNone (VStr "ctx")).
  reflexivity.
Defined.

(** C9.  A missing key "input" cannot be told from an empty string: the
    response to an event mapping without the key is the response to the same
    mapping with "input" set to the empty string. *)
Theorem missing_input_like_empty_string (event : gmap string value) (context : value) :
  event !! "input" = None →
  lambda_handler (VDict event) context
  = lambda_handler (VDict (<["input" := VStr ""]> event)) context.
Proof.
  intros Hnone. unfold lambda_handler.
  rewrite !get_dict, lookup_insert_eq, Hnone. reflexivity.
Qed.

Lemma missing_input_like_empty_string_witness :
  (∅ : gmap string value) !! "input" = None
  ∧ lambda_handler (VDict ∅) VNone
    = lambda_handler (VDict (<["input" := VStr ""]> ∅)) VNone.
Proof.
  split; [reflexivity |].
  apply (missing_input_like_empty_string ∅ VNone). reflexivity.
Defined.

(** C10.  For every event mapping the response is a dict whose keys are
    "input", "is_valid" and "message" and no other, and the value at
    "is_valid" is a [bool], not merely a true or a false object. *)
Theorem response_shape (event : gmap string value) (context : value) :
  keys (lambda_handler (VDict event) context)
  = Some ({["input"; "is_valid"; "message"]} : gset string)
  ∧ ∃ b : bool,
      field "is_valid" (lambda_handler (VDict event) context) = Some (VBool b).
Proof.
  destruct (lambda_handler_verdict event context) as (b & -> & _).
  split; [apply field_display |].
  exists b. apply field_display.
Qed.

(** ** Further properties of the handler *)

(** The length of a concatenation, for the strings the handler measures. *)
Lemma length_append (s t : string) :
  String.length (String.append s t) = (String.length s + String.length t)%nat.
Proof.
  induction s as [| a s IHs]; [reflexivity |].
  simpl. f_equal. exact IHs.
Qed.

(** The verdict stored in the response, read back from the extracted value
    when it is a string. *)
Lemma is_valid_of_str (event : gmap string value) (context : value) s :
  extracted event = VStr s →
  field "is_valid" (lambda_handler (VDict event) context)
  = Some (VBool (3 <? String.length s)%nat)
  ∧ field "message" (lambda_handler (VDict event) context)
    = Some (VStr (if (3 <? String.length s)%nat
                  then "Valid input" else "Invalid input")).
Proof.
  intros Hs. rewrite (lambda_handler_str event context s Hs).
  split; apply field_display.
Qed.

(** X1.  The handler returns a response exactly when the event is a dict.
    Any other event (None, a bool, a number, a string, a list) has no method
    [get]: the call raises [AttributeError], named after the event's type, and
    no response is built. *)
Theorem returns_iff_event_is_dict (event context : value) :
  ((∃ resp, lambda_handler event context = Ok resp) ↔ ∃ d, event = VDict d)
  ∧ ((∀ d, event ≠ VDict d) →
     lambda_handler event context = Raise (AttributeError (type_name event))).
Proof.
  split.
  - split.
    + intros [resp Hresp].
      destruct event as [| b | n | f | s | l | d]; try discriminate Hresp.
      exists d. reflexivity.
    + intros [d ->].
      destruct (lambda_handler_verdict d context) as (b & -> & _).
      eexists. reflexivity.
  - intros Hev. unfold lambda_handler.
    rewrite (get_not_dict _ _ _ Hev). apply bind_Raise.
Qed.

(** X2.  The handler applied to its own response gives that response again:
    the response carries the extracted value under the key "input", so a
    second pass extracts the same value and reaches the same verdict. *)
Theorem handler_fixes_its_response (event : gmap string value)
    (context context' : value) :
  (resp ← lambda_handler (VDict event) context; lambda_handler resp context')
  = lambda_handler (VDict event) context.
Proof.
  destruct (lambda_handler_verdict event context) as (b & Hfirst & Hb).
  rewrite Hfirst, bind_Ok.
  destruct (display_response (extracted event) (VBool b)
              (VStr (if b then "Valid input" else "Invalid input")))
    as (resp & Hresp & Hin & _).
  rewrite Hresp.
  assert (Hsame : extracted resp = extracted event).
  { unfold extracted at 1. rewrite Hin. reflexivity. }
  destruct (lambda_handler_verdict resp context') as (b' & -> & Hb').
  rewrite Hsame in Hb' |- *.
  assert (Hbb : b' = b).
  { destruct b, b'; try reflexivity.
    - apply Hb', Hb. reflexivity.
    - symmetry. apply Hb, Hb'. reflexivity. }
  rewrite Hbb, Hresp. reflexivity.
Qed.

(** X3.  Two event mappings get the same response if and only if their
    extracted values are the same: the response tells apart any two different
    values at "input", a null from a missing key among them. *)
Theorem same_response_iff_same_extracted (event1 event2 : gmap string value)
    (context1 context2 : value) :
  lambda_handler (VDict event1) context1 = lambda_handler (VDict event2) context2
  ↔ extracted event1 = extracted event2.
Proof.
  split.
  - intros Heq. apply (f_equal (field "input")) in Heq.
    destruct (lambda_handler_verdict event1 context1) as (b1 & H1 & _).
    destruct (lambda_handler_verdict event2 context2) as (b2 & H2 & _).
    rewrite H1, H2 in Heq.
    rewrite (proj1 (field_display _ _ _)) in Heq.
    rewrite (proj1 (field_display _ _ _)) in Heq.
    injection Heq as Heq. exact Heq.
  - intros Heq. unfold lambda_handler.
    rewrite !get_dict. fold (extracted event1) (extracted event2).
    rewrite Heq. reflexivity.
Qed.

(** X4.  For a string the verdict looks at the length and at nothing else:
    two strings of the same length get the same [is_valid] and the same
    message, whatever their characters are (blanks count like letters). *)
Theorem verdict_depends_on_length (event1 event2 : gmap string value)
    (context1 context2 : value) (s1 s2 : string) :
  extracted event1 = VStr s1 →
  extracted event2 = VStr s2 →
  String.length s1 = String.length s2 →
  field "is_valid" (lambda_handler (VDict event1) context1)
  = field "is_valid" (lambda_handler (VDict event2) context2)
  ∧ field "message" (lambda_handler (VDict event1) context1)
    = field "message" (lambda_handler (VDict event2) context2).
Proof.
  intros Hs1 Hs2 Hlen.
  destruct (is_valid_of_str event1 context1 s1 Hs1) as [-> ->].
  destruct (is_valid_of_str event2 context2 s2 Hs2) as [-> ->].
  rewrite Hlen. split; reflexivity.
Qed.

Lemma verdict_depends_on_length_witness :
  let event1 : gmap string value := {["input" := VStr "    "]} in
  let event2 : gmap string value := {["input" := VStr "test"]} in
  (extracted event1 = VStr "    " ∧ extracted event2 = VStr "test"
   ∧ String.length "    " = String.length "test")
  ∧ field "is_valid" (lambda_handler (VDict event1) VNone)
    = field "is_valid" (lambda_handler (VDict event2) VNone)
  ∧ field "message" (lambda_handler (VDict event1) VNone)
    = field "message" (lambda_handler (VDict event2) VNone).
Proof.
  split; [repeat split |].
  apply (verdict_depends_on_length
           {["input" := VStr "    "]} {["input" := VStr "test"]}
           VNone VNone "    " "test"); reflexivity.
Defined.

(** X5.  A valid string stays valid when characters are put before or after
    it: if the handler accepts [s], it accepts [t ++ s ++ u]. *)
Theorem valid_stays_valid_when_extended (event1 event2 : gmap string value)
    (context1 context2 : value) (s t u : string) :
  extracted event1 = VStr s →
  extracted event2 = VStr (String.append t (String.append s u)) →
  field "is_valid" (lambda_handler (VDict event1) context1) = Some (VBool true) →
  field "is_valid" (lambda_handler (VDict event2) context2) = Some (VBool true).
Proof.
  intros Hs Hext Hvalid.
  destruct (is_valid_of_str event1 context1 s Hs) as [Hv1 _].
  destruct (is_valid_of_str event2 context2 _ Hext) as [-> _].
  rewrite Hv1 in Hvalid. injection Hvalid as Hlt.
  apply Nat.ltb_lt in Hlt.
  do 2 f_equal. apply Nat.ltb_lt.
  rewrite !length_append. lia.
Qed.

Lemma valid_stays_valid_when_extended_witness :
  let event1 : gmap string value := {["input" := VStr "gate"]} in
  let event2 : gmap string value := {["input" := VStr "a gatekeeper"]} in
  (extracted event1 = VStr "gate"
   ∧ extracted event2 = VStr (String.append "a " (String.append "gate" "keeper"))
   ∧ field "is_valid" (lambda_handler (VDict event1) VNone) = Some (VBool true))
  ∧ field "is_valid" (lambda_handler (VDict event2) VNone) = Some (VBool true).
Proof.
  split; [repeat split |].
  apply (valid_stays_valid_when_extended
           {["input" := VStr "gate"]} {["input" := VStr "a gatekeeper"]}
           VNone VNone "gate" "a " "keeper"); reflexivity.
Defined.
